(** * Technician arrival analysis: the arrival resolver of [app.py]

    A shallow embedding of the computational core of [app.py]
    ([calculate_distance], [find_arrival_time], [get_arrival_status],
    [get_status_color] and the per-job derivation of [delay_minutes]),
    followed by the properties the specification states about it.

    Conventions of the embedding.
    - A pandas [Timestamp] is its count of nanoseconds since the epoch, an
      integer ([Z]); [pd.Timedelta(hours=2)] is [2 * 3600 * 10^9] nanoseconds.
      [find_arrival_time] computes on these integers; the 64-bit range of a
      [Timestamp] is represented in [find_arrival_time_df], where a window
      bound outside the range raises.
    - Latitudes, longitudes, distances and delays are Python floats; they are
      read as the real numbers they denote ([R]), so [x ** 2] is [x ^ 2] and
      [x ** 0.5] is [sqrt x].  Rounding is not represented.
    - The missing value ([None], [NaT], [NaN]) is [None] of an [option].
    - A technician id and a status are strings.
    - [find_arrival_time] reads a [DataFrame] as the list of its rows, in
      row order.  [find_arrival_time_df] is the same function over a store
      of data-frame objects, where selecting and copying allocate, column
      assignment updates the object, and reading a column a frame does not
      have raises; section [Frames] shows where the two agree. *)

From Stdlib Require Import ZArith List String Reals Lra Lia.
From stdpp Require Import gmap strings.
Import ListNotations.

Local Open Scope string_scope.
Local Open Scope Z_scope.

(** ** Data model *)

Definition Timestamp := Z.

(** A row of the GPS table: [technician_id, timestamp, latitude, longitude]. *)
Record GpsPing := mkGpsPing {
  technician_id : string;
  timestamp : Timestamp;
  latitude : R;
  longitude : R
}.

(** A row of the schedule table. *)
Record ScheduleEntry := mkScheduleEntry {
  job_technician_id : string;
  job_id : string;
  job_latitude : R;
  job_longitude : R;
  scheduled_start : Timestamp
}.

(** [pd.Timedelta(hours=h)], in nanoseconds. *)
Definition Timedelta_hours (h : Z) : Z := h * 3600 * 10 ^ 9.

(** Comparison of two floats, as a boolean. *)
Definition Rleb (x y : R) : bool := if Rle_dec x y then true else false.

(** ** [calculate_distance] (app.py, lines 42-49) *)

Definition calculate_distance (lat1 lon1 lat2 lon2 : R) : R :=
  let lat_diff := (lat1 - lat2)%R in
  let lon_diff := (lon1 - lon2)%R in
  let distance_degrees := sqrt (lat_diff ^ 2 + lon_diff ^ 2) in
  let distance_meters := (distance_degrees * 111000)%R in
  distance_meters.

(** ** [find_arrival_time] (app.py, lines 52-82) *)

(** The boolean mask of lines 61-63. *)
Definition window_mask (tech_id : string) (scheduled_time : Timestamp)
    (row : GpsPing) : bool :=
  let time_window_start := scheduled_time - Timedelta_hours 2 in
  let time_window_end := scheduled_time + Timedelta_hours 2 in
  String.eqb (technician_id row) tech_id
  && (timestamp row >=? time_window_start)
  && (timestamp row <=? time_window_end).

(** [Series.min()] of a column of timestamps; [NaT] on an empty column. *)
Definition series_min (col : list Timestamp) : option Timestamp :=
  match col with
  | [] => None
  | t :: ts => Some (fold_left Z.min ts t)
  end.

(** [DataFrame.empty]. *)
Definition empty {A : Type} (df : list A) : bool :=
  match df with [] => true | _ :: _ => false end.

Definition find_arrival_time (gps_data : list GpsPing) (tech_id : string)
    (job_lat job_lon : R) (scheduled_time : Timestamp) : option Timestamp :=
  let tech_gps := List.filter (window_mask tech_id scheduled_time) gps_data in
  if empty tech_gps then None
  else
    (* the copy of [tech_gps] with its new column ['distance'] *)
    let tech_gps :=
      map (fun row =>
             (row, calculate_distance (latitude row) (longitude row) job_lat job_lon))
          tech_gps in
    let close_points := List.filter (fun rd => Rleb (snd rd) 100) tech_gps in
    if negb (empty close_points)
    then series_min (map (fun rd => timestamp (fst rd)) close_points)
    else None.

(** ** [get_arrival_status] (app.py, lines 85-96) *)

Definition get_arrival_status (delay_minutes : option R) : string :=
  match delay_minutes with
  | None => "No GPS Data"
  | Some d =>
      if Rle_dec d (-5) then "Early"
      else if Rle_dec d 5 then "On Time"
      else if Rle_dec d 30 then "Late"
      else "Very Late"
  end.

(** ** [get_status_color] (app.py, lines 99-108) *)

Definition colors : gmap string string :=
  <["Early" := "green"]>
  (<["On Time" := "lightgreen"]>
  (<["Late" := "orange"]>
  (<["Very Late" := "red"]>
  (<["No GPS Data" := "gray"]> ∅)))).

Definition get_status_color (status : string) : string :=
  default "gray" (colors !! status).

(** ** The per-job derivation (app.py, lines 155-174) *)

(** [Timedelta.total_seconds()] of a difference of timestamps. *)
Definition total_seconds (td : Z) : R := (IZR td / 1000000000)%R.

(** Lines 168-171, for one row: [NaT] stays missing. *)
Definition delay_minutes (actual_arrival : option Timestamp)
    (scheduled_start : Timestamp) : option R :=
  match actual_arrival with
  | Some a => Some (total_seconds (a - scheduled_start) / 60)%R
  | None => None
  end.

Record ArrivalResult := mkArrivalResult {
  result_job : ScheduleEntry;
  actual_arrival : option Timestamp;
  result_delay_minutes : option R;
  status : string
}.

(** One iteration of the loop of lines 150-162 and the row of the three
    derived columns it leads to, read row by row: this is the row the script
    derives when the column of arrivals holds at least one timestamp
    ([analyze_df] below has the columns as the script builds them, and
    section [Analysis] relates the two). *)
Definition analyze_job (gps_data : list GpsPing) (job : ScheduleEntry)
    : ArrivalResult :=
  let arrival_time :=
    find_arrival_time gps_data (job_technician_id job)
      (job_latitude job) (job_longitude job) (scheduled_start job) in
  let delay := delay_minutes arrival_time (scheduled_start job) in
  mkArrivalResult job arrival_time delay (get_arrival_status delay).

(** ** The resolver over a store of data-frame objects *)

(** A data frame is an object: [find_arrival_time] receives a reference to
    the GPS table, builds new frames by selection and copy, and assigns a
    column in place.  A frame holds its rows in order and, when it has one,
    its column ['distance'] (one value per row). *)
Record DataFrame := mkDataFrame {
  frame_rows : list GpsPing;
  frame_distance : option (list R)
}.

Abbreviation Store := (gmap nat DataFrame).

(** The exceptions of the analysis: pandas raises [KeyError] on a frame that
    lacks a column, [OutOfBoundsDatetime] when a timestamp leaves the 64-bit
    range, and [TypeError] when a column of objects meets a column of
    timestamps in a subtraction. *)
Inductive exception : Type := KeyError | OutOfBoundsDatetime | TypeError.

Inductive outcome (A : Type) : Type :=
| Returned (a : A)
| Raised (e : exception).

Arguments Returned {A} a.
Arguments Raised {A} e.

(** Computations that read and update the store and may raise. *)
Definition State (A : Type) : Type := Store -> outcome A * Store.

Definition ret {A : Type} (a : A) : State A := fun s => (Returned a, s).

Definition raise {A : Type} (e : exception) : State A := fun s => (Raised e, s).

Definition bind {A B : Type} (m : State A) (k : A -> State B) : State B :=
  fun s =>
    match m s with
    | (Returned a, s') => k a s'
    | (Raised e, s') => (Raised e, s')
    end.

Notation "'do' x <- m ; k" := (bind m (fun x => k))
  (at level 10, x name, m at level 100, k at level 200).

(** The frame a reference points to. *)
Definition frame_of (s : Store) (df : nat) : DataFrame :=
  default (mkDataFrame [] None) (s !! df).

(** The entries of a column at the positions where a boolean series holds. *)
Fixpoint select {A : Type} (mask : list bool) (col : list A) : list A :=
  match mask, col with
  | b :: mask', x :: col' => if b then x :: select mask' col' else select mask' col'
  | _, _ => []
  end.

(** A new object holding [frame]. *)
Definition df_new (frame : DataFrame) : State nat :=
  fun s => let df := fresh (dom s) in (Returned df, <[df := frame]> s).

(** A boolean series computed from the GPS columns of each row. *)
Definition df_mask (df : nat) (f : GpsPing -> bool) : State (list bool) :=
  fun s => (Returned (map f (frame_rows (frame_of s df))), s).

(** [df['distance'] <= bound]; a [KeyError] without the column. *)
Definition df_distance_le (df : nat) (bound : R) : State (list bool) :=
  fun s =>
    match frame_distance (frame_of s df) with
    | Some col => (Returned (map (fun d => Rleb d bound) col), s)
    | None => raise KeyError s
    end.

(** [df[mask]]: a new frame with the rows the boolean series selects. *)
Definition df_getitem_mask (df : nat) (mask : list bool) : State nat :=
  fun s =>
    let frame := frame_of s df in
    df_new (mkDataFrame (select mask (frame_rows frame))
              (option_map (select mask) (frame_distance frame))) s.

(** [df.copy()]. *)
Definition df_copy (df : nat) : State nat :=
  fun s => df_new (frame_of s df) s.

(** [df.empty]. *)
Definition df_empty (df : nat) : State bool :=
  fun s => (Returned (empty (frame_rows (frame_of s df))), s).

(** [df.apply(f, axis=1)]: the series of [f] over the rows. *)
Definition df_apply (df : nat) (f : GpsPing -> R) : State (list R) :=
  fun s => (Returned (map f (frame_rows (frame_of s df))), s).

(** [df['distance'] = series]: the frame [df] itself is updated. *)
Definition df_setitem_distance (df : nat) (series : list R) : State unit :=
  fun s =>
    (Returned tt, <[df := mkDataFrame (frame_rows (frame_of s df)) (Some series)]> s).

(** [df['timestamp'].min()]. *)
Definition df_timestamp_min (df : nat) : State (option Timestamp) :=
  fun s => (Returned (series_min (map timestamp (frame_rows (frame_of s df)))), s).

(** The least and the greatest count of nanoseconds of a [Timestamp]; the
    count [-2^63] is [NaT]. *)
Definition Timestamp_min : Z := - (2 ^ 63 - 1).

Definition Timestamp_max : Z := 2 ^ 63 - 1.

(** The timestamp [Timestamp + Timedelta] gives for the count it computes:
    [OutOfBoundsDatetime] when the count does not fit 64 bits, [NaT] for the
    count [-2^63]. *)
Definition Timestamp_of_value (value : Z) : State (option Timestamp) :=
  fun s =>
    if (value <? - 2 ^ 63) || (2 ^ 63 - 1 <? value) then raise OutOfBoundsDatetime s
    else if value =? - 2 ^ 63 then (Returned None, s)
    else (Returned (Some value), s).

(** The mask of lines 61-63 for window bounds already computed; a
    comparison with [NaT] is false. *)
Definition window_mask_between (tech_id : string)
    (time_window_start time_window_end : option Timestamp) (row : GpsPing) : bool :=
  String.eqb (technician_id row) tech_id
  && match time_window_start with
     | Some a => timestamp row >=? a
     | None => false
     end
  && match time_window_end with
     | Some b => timestamp row <=? b
     | None => false
     end.

(** Lines 60-82, for the mask [window] of lines 61-63. *)
Definition arrival_among (gps_data : nat) (window : GpsPing -> bool)
    (job_lat job_lon : R) : State (option Timestamp) :=
  do mask <- df_mask gps_data window;
  do tech_gps <- df_getitem_mask gps_data mask;
  do is_empty <- df_empty tech_gps;
  if is_empty then ret None
  else
    do tech_gps <- df_copy tech_gps;
    do distance <-
      df_apply tech_gps
        (fun row => calculate_distance (latitude row) (longitude row) job_lat job_lon);
    do _ <- df_setitem_distance tech_gps distance;
    do mask <- df_distance_le tech_gps 100;
    do close_points <- df_getitem_mask tech_gps mask;
    do is_empty <- df_empty close_points;
    if negb is_empty then df_timestamp_min close_points else ret None.

Definition find_arrival_time_df (gps_data : nat) (tech_id : string)
    (job_lat job_lon : R) (scheduled_time : Timestamp)
    : State (option Timestamp) :=
  do time_window_start <- Timestamp_of_value (scheduled_time - Timedelta_hours 2);
  do time_window_end <- Timestamp_of_value (scheduled_time + Timedelta_hours 2);
  arrival_among gps_data (window_mask_between tech_id time_window_start time_window_end)
    job_lat job_lon.

(** Both window bounds of a job scheduled at [scheduled_time] are timestamps. *)
Definition window_representable (scheduled_time : Timestamp) : Prop :=
  Timestamp_min <= scheduled_time - Timedelta_hours 2
  /\ scheduled_time + Timedelta_hours 2 <= Timestamp_max.


(** The objects of the store [s0] are in [s] what they were in [s0]. *)
Definition unchanged_on (s0 s : Store) : Prop :=
  forall df : nat, is_Some (s0 !! df) -> s !! df = s0 !! df.

(** ** What the specification calls a qualifying ping *)

(** The ping belongs to the technician and lies in the closed window of two
    hours on either side of the scheduled start. *)
Definition in_window (tech_id : string) (scheduled_time : Timestamp)
    (p : GpsPing) : Prop :=
  technician_id p = tech_id
  /\ scheduled_time - Timedelta_hours 2 <= timestamp p
  /\ timestamp p <= scheduled_time + Timedelta_hours 2.

(** The ping is at most 100 meters from the site. *)
Definition at_site (job_lat job_lon : R) (p : GpsPing) : Prop :=
  (calculate_distance (latitude p) (longitude p) job_lat job_lon <= 100)%R.

Definition qualifying (tech_id : string) (job_lat job_lon : R)
    (scheduled_time : Timestamp) (p : GpsPing) : Prop :=
  in_window tech_id scheduled_time p /\ at_site job_lat job_lon p.

(** The resolver is the minimum of the timestamp column of the rows that
    pass both masks. *)
Definition both_masks (tech_id : string) (job_lat job_lon : R)
    (scheduled_time : Timestamp) (row : GpsPing) : bool :=
  window_mask tech_id scheduled_time row
  && Rleb (calculate_distance (latitude row) (longitude row) job_lat job_lon) 100.

(** ** Sample data *)

(** Midnight of 2024-01-01, in seconds since the epoch (19723 days). *)
Definition midnight_2024_01_01 : Z := 19723 * 86400.

(** The timestamp of [hh:mm:00] on 2024-01-01. *)
Definition at_clock (hh mm : Z) : Timestamp :=
  (midnight_2024_01_01 + hh * 3600 + mm * 60) * 10 ^ 9.

(** Three pings of technician T around a site at the origin: 150 m away at
    09:00, 80 m away at 09:05, 60 m away at 09:10. *)
Definition pings_T : list GpsPing :=
  [ mkGpsPing "T" (at_clock 9 0) (150 / 111000) 0;
    mkGpsPing "T" (at_clock 9 5) (80 / 111000) 0;
    mkGpsPing "T" (at_clock 9 10) (60 / 111000) 0 ].

(** One job at (37.0, -122.0) scheduled at 09:00 and one ping of the same
    technician at 09:12 at (37.0001, -122.0001). *)
Definition job_1 : ScheduleEntry :=
  mkScheduleEntry "T" "J1" 37.0 (-122.0) (at_clock 9 0).

Definition ping_1 : GpsPing :=
  mkGpsPing "T" (at_clock 9 12) 37.0001 (-122.0001).

(** A ping of T at the site itself at 06:59, before the window of a job
    scheduled at 09:00 opens, and one at 07:00, the instant it opens. *)
Definition ping_before : GpsPing := mkGpsPing "T" (at_clock 6 59) 0 0.

Definition ping_opening : GpsPing := mkGpsPing "T" (at_clock 7 0) 0 0.

(** A store whose only object, at reference 0, is the GPS table [pings_T]. *)
Definition store_T : Store :=
  {[ 0%nat := mkDataFrame pings_T None ]}.

(** ** The loop over the jobs (app.py, lines 146-162) *)

(** The loop over the store: one call of the resolver per job, all on the
    same GPS table, each result appended to [actual_arrivals]. *)
Fixpoint arrivals_loop (gps_data : nat) (jobs : list ScheduleEntry)
    (actual_arrivals : list (option Timestamp))
    : State (list (option Timestamp)) :=
  match jobs with
  | [] => ret actual_arrivals
  | job :: jobs' =>
      do arrival_time <-
        find_arrival_time_df gps_data (job_technician_id job)
          (job_latitude job) (job_longitude job) (scheduled_start job);
      arrivals_loop gps_data jobs' (actual_arrivals ++ [arrival_time])%list
  end.

(** The values [(i + 1) / total_jobs] given to the progress bar (line 152),
    for [i] from 0 to [total_jobs - 1]. *)
Definition progress_values (total_jobs : nat) : list R :=
  map (fun i : nat => (INR (i + 1) / INR total_jobs)%R) (seq 0 total_jobs).

(** ** The derived columns (app.py, lines 164-174) *)

(** Whether an arrival is [None]. *)
Definition is_missing (arrival_time : option Timestamp) : bool :=
  match arrival_time with
  | None => true
  | Some _ => false
  end.

(** Lines 164-174 over the arrivals the loop collected.  The column
    ['actual_arrival'] made of the list holds timestamps, with [NaT] for
    [None], as soon as one arrival is a timestamp; a list of [None] only
    makes a column of objects, and subtracting the column of scheduled
    starts from it (line 169) raises [TypeError]. *)
Definition derive_columns (filtered_schedules : list ScheduleEntry)
    (actual_arrivals : list (option Timestamp)) : State (list ArrivalResult) :=
  if forallb is_missing actual_arrivals then raise TypeError
  else
    ret (zip_with
           (fun job arrival_time =>
              let delay := delay_minutes arrival_time (scheduled_start job) in
              mkArrivalResult job arrival_time delay (get_arrival_status delay))
           filtered_schedules actual_arrivals).

(** Lines 146-174: the loop, then the derived columns. *)
Definition analyze_df (gps_data : nat) (filtered_schedules : list ScheduleEntry)
    : State (list ArrivalResult) :=
  do actual_arrivals <- arrivals_loop gps_data filtered_schedules [];
  derive_columns filtered_schedules actual_arrivals.

(** ** The summary (app.py, lines 186-220) *)

(** [Series.value_counts()] of the status column: how often each value
    occurs (the order of the entries is not represented). *)
Definition value_counts (col : list string) : gmap string nat :=
  fold_right (fun v counts => <[v := S (default 0%nat (counts !! v))]> counts) ∅ col.

(** The sum of the counts over the entries of the summary. *)
Definition counts_total (counts : gmap string nat) : nat :=
  map_fold (fun _ count acc => (count + acc)%nat) 0%nat counts.

(** [Series.dropna()] of the delay column. *)
Fixpoint dropna (col : list (option R)) : list R :=
  match col with
  | [] => []
  | Some d :: col' => d :: dropna col'
  | None :: col' => dropna col'
  end.

(** Lines 211-220: the worst and the best delay, [max()] and [min()] of the
    known delays, shown when some delay is known.  (The average of line 216
    is a sum of floats divided by their number; it is not represented.) *)
Definition delay_extremes (delays : list (option R)) : option (R * R) :=
  match dropna delays with
  | [] => None
  | d :: ds => Some (fold_left Rmax ds d, fold_left Rmin ds d)
  end.

(** ** Notions used by the further properties *)

(** The earlier of two optional arrivals. *)
Definition earlier (a b : option Timestamp) : option Timestamp :=
  match a, b with
  | Some x, Some y => Some (Z.min x y)
  | Some x, None => Some x
  | None, _ => b
  end.


(** [m] minutes, in nanoseconds. *)
Definition minutes (m : Z) : Z := m * 60 * 10 ^ 9.

(** A store whose only object, at reference 0, is the GPS table [[ping_1]]. *)
Definition store_1 : Store :=
  {[ 0%nat := mkDataFrame [ping_1] None ]}.

(** * Properties *)

(** ** Auxiliary facts *)

Lemma Timedelta_two_hours : Timedelta_hours 2 = 7200000000000.
Proof. reflexivity. Qed.

Lemma Rleb_true (x y : R) : Rleb x y = true <-> (x <= y)%R.
Proof.
  unfold Rleb. destruct (Rle_dec x y) as [H | H].
  - split; auto.
  - split; [discriminate | contradiction].
Qed.

Lemma window_mask_true tech_id scheduled_time p :
  window_mask tech_id scheduled_time p = true <-> in_window tech_id scheduled_time p.
Proof.
  unfold window_mask, in_window. cbv zeta.
  rewrite !Bool.andb_true_iff, String.eqb_eq, Z.geb_le, Z.leb_le.
  tauto.
Qed.

Lemma empty_true {A : Type} (l : list A) : empty l = true <-> l = [].
Proof. destruct l; simpl; split; congruence. Qed.

(** The minimum of a column: it is one of its entries and below all of them. *)
Lemma fold_left_min_le (ts : list Z) (t : Z) :
  fold_left Z.min ts t <= t /\ (forall x, In x ts -> fold_left Z.min ts t <= x).
Proof.
  revert t. induction ts as [| a ts IH]; intros t; simpl.
  - split; [lia | contradiction].
  - destruct (IH (Z.min t a)) as [Hm Hall]. split; [lia |].
    intros x [<- | Hx]; [lia | auto].
Qed.

Lemma fold_left_min_in (ts : list Z) (t : Z) :
  fold_left Z.min ts t = t \/ In (fold_left Z.min ts t) ts.
Proof.
  revert t. induction ts as [| a ts IH]; intros t; simpl.
  - now left.
  - destruct (IH (Z.min t a)) as [H | H]; [| now right; right].
    rewrite H. destruct (Z.min_spec t a) as [[_ E] | [_ E]]; rewrite E; auto.
Qed.

Lemma series_min_none (col : list Timestamp) : series_min col = None <-> col = [].
Proof. destruct col; simpl; split; congruence. Qed.

Lemma series_min_some (col : list Timestamp) (t : Timestamp) :
  series_min col = Some t -> In t col /\ (forall x, In x col -> t <= x).
Proof.
  destruct col as [| a ts]; simpl; [discriminate |].
  intros [= <-]. split.
  - destruct (fold_left_min_in ts a) as [-> | H]; auto.
  - destruct (fold_left_min_le ts a) as [Ha Hall].
    intros x [<- | Hx]; auto.
Qed.

Lemma both_masks_true tech_id job_lat job_lon scheduled_time p :
  both_masks tech_id job_lat job_lon scheduled_time p = true
  <-> qualifying tech_id job_lat job_lon scheduled_time p.
Proof.
  unfold both_masks, qualifying, at_site.
  now rewrite Bool.andb_true_iff, window_mask_true, Rleb_true.
Qed.

Lemma close_points_timestamps (d : GpsPing -> R) (rows : list GpsPing) :
  map (fun rd => timestamp (fst rd))
      (List.filter (fun rd => Rleb (snd rd) 100) (map (fun row => (row, d row)) rows))
  = map timestamp (List.filter (fun row => Rleb (d row) 100) rows).
Proof.
  induction rows as [| r rows IH]; simpl; [reflexivity |].
  destruct (Rleb (d r) 100); simpl; now rewrite IH.
Qed.

Lemma filter_filter_andb {A : Type} (f g : A -> bool) (l : list A) :
  List.filter g (List.filter f l) = List.filter (fun x => f x && g x) l.
Proof.
  induction l as [| a l IH]; simpl; [reflexivity |].
  destruct (f a); simpl; [destruct (g a) |]; now rewrite IH.
Qed.

Lemma find_arrival_time_unfold gps_data tech_id job_lat job_lon scheduled_time :
  find_arrival_time gps_data tech_id job_lat job_lon scheduled_time
  = series_min
      (map timestamp
         (List.filter (both_masks tech_id job_lat job_lon scheduled_time) gps_data)).
Proof.
  unfold find_arrival_time. cbv zeta.
  set (d := fun row => calculate_distance (latitude row) (longitude row) job_lat job_lon).
  assert (Hboth : List.filter (both_masks tech_id job_lat job_lon scheduled_time) gps_data
                  = List.filter (fun row => Rleb (d row) 100)
                      (List.filter (window_mask tech_id scheduled_time) gps_data)).
  { now rewrite filter_filter_andb. }
  rewrite Hboth.
  generalize (List.filter (window_mask tech_id scheduled_time) gps_data) as tech_gps.
  intros tech_gps.
  rewrite <- (close_points_timestamps d tech_gps).
  destruct tech_gps as [| r rs]; [reflexivity |].
  change (empty (r :: rs)) with false. cbv iota.
  clear Hboth. subst d. cbv beta.
  match goal with |- context [empty ?X] => generalize X as close_points end.
  now intros [| c cs].
Qed.

(** The resolver's result, characterised by the qualifying pings: it is
    missing when there is none, and otherwise the timestamp of a qualifying
    ping that no qualifying ping precedes. *)
Lemma find_arrival_time_cases gps_data tech_id job_lat job_lon scheduled_time :
  match find_arrival_time gps_data tech_id job_lat job_lon scheduled_time with
  | Some t =>
      (exists p, In p gps_data
                 /\ qualifying tech_id job_lat job_lon scheduled_time p
                 /\ timestamp p = t)
      /\ (forall q, In q gps_data
                    -> qualifying tech_id job_lat job_lon scheduled_time q
                    -> t <= timestamp q)
  | None =>
      forall q, In q gps_data -> ~ qualifying tech_id job_lat job_lon scheduled_time q
  end.
Proof.
  rewrite find_arrival_time_unfold.
  set (sel := List.filter (both_masks tech_id job_lat job_lon scheduled_time) gps_data).
  assert (Hsel : forall p, In p sel
                 <-> In p gps_data /\ qualifying tech_id job_lat job_lon scheduled_time p).
  { intros p. unfold sel. now rewrite List.filter_In, both_masks_true. }
  destruct (series_min (map timestamp sel)) as [t |] eqn:E.
  - apply series_min_some in E. destruct E as [Hin Hmin]. split.
    + apply List.in_map_iff in Hin. destruct Hin as (p & Hp & Hin).
      apply Hsel in Hin. exists p. tauto.
    + intros q Hq Hqual. apply Hmin, List.in_map. apply Hsel. tauto.
  - apply series_min_none, map_eq_nil in E.
    intros q Hq Hqual.
    assert (Hin : In q sel) by (apply Hsel; tauto).
    rewrite E in Hin. contradiction.
Qed.

Lemma find_arrival_time_none_iff gps_data tech_id job_lat job_lon scheduled_time :
  find_arrival_time gps_data tech_id job_lat job_lon scheduled_time = None
  <-> (forall q, In q gps_data -> ~ qualifying tech_id job_lat job_lon scheduled_time q).
Proof.
  pose proof (find_arrival_time_cases gps_data tech_id job_lat job_lon scheduled_time) as H.
  destruct (find_arrival_time _ _ _ _ _) as [t |].
  - destruct H as [(p & Hp & Hq & _) _]. split; [discriminate |].
    intros Hno. exfalso. exact (Hno p Hp Hq).
  - tauto.
Qed.

(** A timestamp with the two defining properties of the result is the result. *)
Lemma find_arrival_time_some_intro gps_data tech_id job_lat job_lon scheduled_time p :
  In p gps_data ->
  qualifying tech_id job_lat job_lon scheduled_time p ->
  (forall q, In q gps_data -> qualifying tech_id job_lat job_lon scheduled_time q
             -> timestamp p <= timestamp q) ->
  find_arrival_time gps_data tech_id job_lat job_lon scheduled_time = Some (timestamp p).
Proof.
  intros Hp Hqual Hmin.
  pose proof (find_arrival_time_cases gps_data tech_id job_lat job_lon scheduled_time) as H.
  destruct (find_arrival_time _ _ _ _ _) as [t |].
  - destruct H as [(p' & Hp' & Hq' & <-) Hle].
    f_equal. specialize (Hle p Hp Hqual). specialize (Hmin p' Hp' Hq'). lia.
  - exfalso. exact (H p Hp Hqual).
Qed.

(** ** The proximity metric *)

Section Distance.
Local Open Scope R_scope.

(** C5: the distance of two points is the Euclidean distance of their
    coordinates in degrees multiplied by 111000, and the distance from the
    origin to itself is 0. *)
Theorem calculate_distance_formula :
  (forall lat1 lon1 lat2 lon2 : R,
     calculate_distance lat1 lon1 lat2 lon2
     = sqrt ((lat1 - lat2) * (lat1 - lat2) + (lon1 - lon2) * (lon1 - lon2)) * 111000)
  /\ calculate_distance 0 0 0 0 = 0.
Proof.
  split.
  - intros. unfold calculate_distance. cbv zeta.
    f_equal. f_equal. ring.
  - unfold calculate_distance. cbv zeta.
    replace ((0 - 0) ^ 2 + (0 - 0) ^ 2) with 0 by ring.
    rewrite sqrt_0. ring.
Qed.

(** C9: the distance is symmetric in its two points. *)
Theorem calculate_distance_symmetric :
  forall lat1 lon1 lat2 lon2 : R,
    calculate_distance lat1 lon1 lat2 lon2 = calculate_distance lat2 lon2 lat1 lon1.
Proof.
  intros. unfold calculate_distance. cbv zeta.
  f_equal. f_equal. ring.
Qed.


(** A bound on the distance from a bound on the squared differences. *)
Lemma calculate_distance_le (lat1 lon1 lat2 lon2 m : R) :
  0 <= m ->
  ((lat1 - lat2) ^ 2 + (lon1 - lon2) ^ 2) * 111000 ^ 2 <= m ^ 2 ->
  calculate_distance lat1 lon1 lat2 lon2 <= m.
Proof.
  intros Hm Hsq. unfold calculate_distance. cbv zeta.
  set (x := (lat1 - lat2) ^ 2 + (lon1 - lon2) ^ 2) in *.
  assert (Hx : 0 <= x).
  { unfold x. apply Rplus_le_le_0_compat; apply pow2_ge_0. }
  assert (Hs : 0 <= sqrt x) by (apply sqrt_pos).
  assert (Hss : sqrt x * sqrt x = x) by (apply sqrt_sqrt; exact Hx).
  destruct (Rle_lt_dec (sqrt x * 111000) m) as [Hle | Hlt]; [exact Hle |].
  exfalso.
  assert (Hmm : m * m < (sqrt x * 111000) * (sqrt x * 111000)).
  { apply Rle_lt_trans with (m * (sqrt x * 111000)).
    - apply Rmult_le_compat_l; lra.
    - apply Rmult_lt_compat_r; lra. }
  replace ((sqrt x * 111000) * (sqrt x * 111000))
    with ((sqrt x * sqrt x) * 111000 ^ 2) in Hmm by ring.
  rewrite Hss in Hmm.
  replace (m ^ 2) with (m * m) in Hsq by ring.
  lra.
Qed.

End Distance.

(** ** The resolver over the store *)

Section Frames.

Lemma frame_of_insert (s : Store) (df : nat) (frame : DataFrame) :
  frame_of (<[df := frame]> s) df = frame.
Proof. unfold frame_of. now rewrite lookup_insert_eq. Qed.

Lemma unchanged_on_refl (s : Store) : unchanged_on s s.
Proof. intros df _. reflexivity. Qed.

(** A fresh reference of a later store is not an object of the first one. *)
Lemma unchanged_on_fresh (s0 s : Store) :
  unchanged_on s0 s -> s0 !! fresh (dom s) = None.
Proof.
  intros H. destruct (s0 !! fresh (dom s)) as [frame |] eqn:E; [| reflexivity].
  exfalso. apply (is_fresh (dom s)). apply elem_of_dom.
  rewrite H by (rewrite E; eauto). rewrite E. eauto.
Qed.

Lemma unchanged_on_insert (s0 s : Store) (df : nat) (frame : DataFrame) :
  unchanged_on s0 s -> s0 !! df = None -> unchanged_on s0 (<[df := frame]> s).
Proof.
  intros H Hdf r Hr. rewrite lookup_insert_ne; [now apply H |].
  intros ->. rewrite Hdf in Hr. now destruct Hr.
Qed.

(** Selecting by a series computed row by row is filtering the rows. *)
Lemma select_map {A : Type} (f : A -> bool) (l : list A) :
  select (map f l) l = List.filter f l.
Proof.
  induction l as [| a l IH]; simpl; [reflexivity |].
  destruct (f a); now rewrite IH.
Qed.

Lemma select_distance (d : GpsPing -> R) (bound : R) (rows : list GpsPing) :
  select (map (fun x => Rleb x bound) (map d rows)) rows
  = List.filter (fun row => Rleb (d row) bound) rows.
Proof. rewrite List.map_map. apply (select_map (fun row => Rleb (d row) bound)). Qed.

(** Lines 60-82 on a store: nothing is raised, the value is the least
    timestamp of the rows that pass the window mask and are within 100
    meters, the frame selected by the window mask is the first object
    allocated, and the objects of the store are unchanged. *)
Lemma arrival_among_run (s : Store) (gps_data : nat) (window : GpsPing -> bool)
    (job_lat job_lon : R) :
  exists s' : Store,
    arrival_among gps_data window job_lat job_lon s
    = (Returned
         (series_min
            (map timestamp
               (List.filter
                  (fun p => window p
                            && Rleb (calculate_distance (latitude p) (longitude p)
                                       job_lat job_lon) 100)
                  (frame_rows (frame_of s gps_data))))),
       s')
    /\ unchanged_on s s'
    /\ frame_rows (frame_of s' (fresh (dom s)))
       = List.filter window (frame_rows (frame_of s gps_data)).
Proof.
  unfold arrival_among, bind, df_mask, df_getitem_mask, df_new, df_empty.
  rewrite frame_of_insert. cbn [frame_rows].
  rewrite select_map.
  set (rows := frame_rows (frame_of s gps_data)).
  set (d := fun p => calculate_distance (latitude p) (longitude p) job_lat job_lon).
  assert (Hboth : List.filter
                    (fun p => window p
                              && Rleb (calculate_distance (latitude p) (longitude p)
                                         job_lat job_lon) 100) rows
                  = List.filter (fun p => Rleb (d p) 100) (List.filter window rows)).
  { now rewrite filter_filter_andb. }
  rewrite Hboth. clear Hboth.
  generalize (option_map (select (map window rows))
                (frame_distance (frame_of s gps_data))) as old_distance.
  generalize (List.filter window rows) as tech_rows.
  intros tech_rows old_distance.
  set (r1 := fresh (dom s)).
  set (s1 := <[r1 := mkDataFrame tech_rows old_distance]> s).
  assert (H1 : unchanged_on s s1).
  { apply unchanged_on_insert; [apply unchanged_on_refl |].
    apply unchanged_on_fresh, unchanged_on_refl. }
  assert (Hs1 : frame_of s1 r1 = mkDataFrame tech_rows old_distance)
    by apply frame_of_insert.
  destruct tech_rows as [| row tech].
  - exists s1. split; [reflexivity |]. split; [exact H1 |]. now rewrite Hs1.
  - change (empty (row :: tech)) with false. cbv iota.
    unfold df_copy, df_new, df_apply, df_setitem_distance, df_distance_le.
    rewrite ?Hs1.
    set (r2 := fresh (dom s1)).
    assert (H2 : s !! r2 = None) by (apply unchanged_on_fresh, H1).
    assert (Hr12 : r2 <> r1).
    { intros E. apply (is_fresh (dom s1)). fold r2. rewrite E.
      apply elem_of_dom. unfold s1. rewrite lookup_insert_eq. eauto. }
    rewrite !frame_of_insert. cbn [frame_rows frame_distance].
    set (s3 := <[r2 := mkDataFrame (row :: tech) (Some (map d (row :: tech)))]>
                 (<[r2 := mkDataFrame (row :: tech) old_distance]> s1)).
    assert (H3 : unchanged_on s s3).
    { unfold s3. apply unchanged_on_insert; [| exact H2].
      apply unchanged_on_insert; [exact H1 | exact H2]. }
    assert (Hs3 : frame_of s3 r2
                  = mkDataFrame (row :: tech) (Some (map d (row :: tech))))
      by apply frame_of_insert.
    assert (Hs3r1 : s3 !! r1 = Some (mkDataFrame (row :: tech) old_distance)).
    { unfold s3. rewrite !lookup_insert_ne by exact Hr12.
      unfold s1. apply lookup_insert_eq. }
    rewrite Hs3. cbn [frame_rows frame_distance option_map].
    rewrite select_distance.
    set (close_rows := List.filter (fun p => Rleb (d p) 100) (row :: tech)).
    set (r3 := fresh (dom s3)).
    assert (Hr31 : r3 <> r1).
    { intros E. apply (is_fresh (dom s3)). fold r3. rewrite E.
      apply elem_of_dom. rewrite Hs3r1. eauto. }
    match goal with |- context [<[r3 := ?F]> s3] => set (F3 := F) end.
    assert (H4 : unchanged_on s (<[r3 := F3]> s3)).
    { apply unchanged_on_insert; [exact H3 |]. apply unchanged_on_fresh, H3. }
    exists (<[r3 := F3]> s3). split; [| split; [exact H4 |]].
    + unfold df_timestamp_min, ret. rewrite frame_of_insert.
      unfold F3. cbn [frame_rows].
      destruct (empty close_rows) eqn:Eemp; cbn [negb]; cbv beta iota.
      * apply empty_true in Eemp. now rewrite Eemp.
      * now rewrite frame_of_insert.
    + unfold frame_of. rewrite lookup_insert_ne by exact Hr31.
      now rewrite Hs3r1.
Qed.

Lemma Timestamp_of_value_representable (value : Z) (s : Store) :
  Timestamp_min <= value <= Timestamp_max ->
  Timestamp_of_value value s = (Returned (Some value), s).
Proof.
  unfold Timestamp_min, Timestamp_max, Timestamp_of_value. intros H.
  destruct (Z.ltb_spec value (- 2 ^ 63)); [lia |].
  destruct (Z.ltb_spec (2 ^ 63 - 1) value); [lia |].
  destruct (Z.eqb_spec value (- 2 ^ 63)); [lia | reflexivity].
Qed.


Lemma Timestamp_of_value_cases (value : Z) (s : Store) :
  Timestamp_of_value value s = (Raised OutOfBoundsDatetime, s)
  \/ exists t, Timestamp_of_value value s = (Returned t, s).
Proof.
  unfold Timestamp_of_value.
  destruct ((value <? - 2 ^ 63) || (2 ^ 63 - 1 <? value)); [now left |].
  right. destruct (value =? - 2 ^ 63); eauto.
Qed.

(** A run of the resolver for a job whose window bounds are timestamps: it
    raises nothing, it returns what [find_arrival_time] computes from the
    rows of the GPS table, and the objects of the store are unchanged. *)
Lemma find_arrival_time_df_run (s : Store) gps_data tech_id job_lat job_lon
    scheduled_time :
  window_representable scheduled_time ->
  exists s' : Store,
    find_arrival_time_df gps_data tech_id job_lat job_lon scheduled_time s
    = (Returned (find_arrival_time (frame_rows (frame_of s gps_data)) tech_id
                   job_lat job_lon scheduled_time), s')
    /\ unchanged_on s s'
    /\ frame_rows (frame_of s' (fresh (dom s)))
       = List.filter (window_mask tech_id scheduled_time)
           (frame_rows (frame_of s gps_data)).
Proof.
  intros [Hlo Hhi]. pose proof Timedelta_two_hours as H2h.
  unfold find_arrival_time_df, bind.
  rewrite !Timestamp_of_value_representable
    by (unfold Timestamp_min, Timestamp_max in *; lia).
  rewrite find_arrival_time_unfold.
  exact (arrival_among_run s gps_data (window_mask tech_id scheduled_time)
           job_lat job_lon).
Qed.




(** Whatever the job, a run leaves the objects of the store unchanged. *)
Lemma find_arrival_time_df_unchanged (s : Store) gps_data tech_id job_lat job_lon
    scheduled_time :
  exists (result : outcome (option Timestamp)) (s' : Store),
    find_arrival_time_df gps_data tech_id job_lat job_lon scheduled_time s
    = (result, s')
    /\ unchanged_on s s'.
Proof.
  unfold find_arrival_time_df, bind.
  destruct (Timestamp_of_value_cases (scheduled_time - Timedelta_hours 2) s)
    as [E | [t1 E]]; rewrite E.
  { eexists _, s. split; [reflexivity | apply unchanged_on_refl]. }
  destruct (Timestamp_of_value_cases (scheduled_time + Timedelta_hours 2) s)
    as [E2 | [t2 E2]]; rewrite E2.
  { eexists _, s. split; [reflexivity | apply unchanged_on_refl]. }
  destruct (arrival_among_run s gps_data (window_mask_between tech_id t1 t2)
              job_lat job_lon) as (s' & Hrun & Hsame & _).
  eexists _, s'. split; [exact Hrun | exact Hsame].
Qed.

(** C7: a call of the resolver leaves the GPS table it is given as it was:
    whatever the arguments, and whether the call returns or raises, the
    frame the reference holds after the call is the frame it held before,
    rows and columns, and so is every other object of the store; when the
    window bounds are timestamps the call returns the resolver's result on
    the rows. *)
Theorem find_arrival_time_df_leaves_input (s : Store) (gps_data : nat)
    (frame : DataFrame) tech_id job_lat job_lon scheduled_time :
  s !! gps_data = Some frame ->
  exists (result : outcome (option Timestamp)) (s' : Store),
    find_arrival_time_df gps_data tech_id job_lat job_lon scheduled_time s
    = (result, s')
    /\ s' !! gps_data = Some frame
    /\ (forall df : nat, is_Some (s !! df) -> s' !! df = s !! df)
    /\ (window_representable scheduled_time ->
        result = Returned (find_arrival_time (frame_rows frame) tech_id job_lat
                             job_lon scheduled_time)).
Proof.
  intros Hgps.
  destruct (find_arrival_time_df_unchanged s gps_data tech_id job_lat job_lon
              scheduled_time) as (result & s' & Hrun & Hsame).
  exists result, s'. split; [exact Hrun |]. split; [| split].
  - rewrite <- Hgps. apply Hsame. rewrite Hgps. eauto.
  - exact Hsame.
  - intros Hwin.
    destruct (find_arrival_time_df_run s gps_data tech_id job_lat job_lon
                scheduled_time Hwin) as (s2 & Hrun2 & _).
    rewrite Hrun in Hrun2. injection Hrun2 as -> _.
    unfold frame_of. now rewrite Hgps.
Qed.

Lemma at_clock_9_representable : window_representable (at_clock 9 0).
Proof.
  unfold window_representable, Timestamp_min, Timestamp_max, at_clock,
    midnight_2024_01_01, Timedelta_hours. simpl. lia.
Qed.

Lemma find_arrival_time_df_leaves_input_witness :
  exists (result : outcome (option Timestamp)) (s' : Store),
    find_arrival_time_df 0%nat "T" 0 0 (at_clock 9 0) store_T = (result, s')
    /\ s' !! 0%nat = Some (mkDataFrame pings_T None)
    /\ (forall df : nat, is_Some (store_T !! df) -> s' !! df = store_T !! df)
    /\ (window_representable (at_clock 9 0) ->
        result = Returned (find_arrival_time pings_T "T" 0 0 (at_clock 9 0))).
Proof.
  apply (find_arrival_time_df_leaves_input store_T 0%nat (mkDataFrame pings_T None)
           "T" 0%R 0%R (at_clock 9 0)).
  unfold store_T. apply lookup_singleton_eq.
Defined.

End Frames.

(** ** The arrival resolver *)

Section Resolver.


Ltac clock :=
  unfold in_window, ping_1, ping_before, ping_opening in *;
  unfold at_clock, midnight_2024_01_01, Timedelta_hours in *;
  simpl in *; try lia.









(** C10: an arrival the resolver returns lies in the closed two-hour window
    around the scheduled start, so the delay derived from it lies between
    -120 and 120 minutes; the delay of a job classified Very Late is at most
    120 minutes. *)
Theorem find_arrival_time_within_window :
  (forall gps_data tech_id job_lat job_lon scheduled_time t,
     find_arrival_time gps_data tech_id job_lat job_lon scheduled_time = Some t ->
     (scheduled_time - 7200 * 10 ^ 9 <= t <= scheduled_time + 7200 * 10 ^ 9)
     /\ exists d, delay_minutes (Some t) scheduled_time = Some d
                  /\ (-120 <= d <= 120)%R)
  /\ (forall gps_data job,
        status (analyze_job gps_data job) = "Very Late" ->
        exists d, result_delay_minutes (analyze_job gps_data job) = Some d
                  /\ (30 < d <= 120)%R).
Proof.
  assert (Hwin : forall gps_data tech_id job_lat job_lon scheduled_time t,
            find_arrival_time gps_data tech_id job_lat job_lon scheduled_time = Some t ->
            scheduled_time - 7200 * 10 ^ 9 <= t <= scheduled_time + 7200 * 10 ^ 9).
  { intros gps_data tech_id job_lat job_lon scheduled_time t E.
    pose proof (find_arrival_time_cases gps_data tech_id job_lat job_lon scheduled_time) as H.
    rewrite E in H. destruct H as [(p & _ & [(_ & Hlo & Hhi) _] & <-) _].
    change (7200 * 10 ^ 9) with (Timedelta_hours 2). lia. }
  assert (Hdelay : forall scheduled_time t,
            scheduled_time - 7200 * 10 ^ 9 <= t <= scheduled_time + 7200 * 10 ^ 9 ->
            (-120 <= total_seconds (t - scheduled_time) / 60 <= 120)%R).
  { intros scheduled_time t [Hlo Hhi]. unfold total_seconds.
    assert (H1 : (IZR (-7200000000000) <= IZR (t - scheduled_time))%R)
      by (apply IZR_le; lia).
    assert (H2 : (IZR (t - scheduled_time) <= IZR 7200000000000)%R)
      by (apply IZR_le; lia).
    lra. }
  split.
  - intros gps_data tech_id job_lat job_lon scheduled_time t E.
    specialize (Hwin _ _ _ _ _ _ E). split; [exact Hwin |].
    eexists. split; [reflexivity |]. apply Hdelay, Hwin.
  - intros gps_data job. unfold analyze_job. cbv zeta. simpl status.
    simpl result_delay_minutes.
    destruct (find_arrival_time _ _ _ _ _) as [t |] eqn:E; simpl; [| discriminate].
    specialize (Hdelay _ _ (Hwin _ _ _ _ _ _ E)).
    set (d := (total_seconds (t - scheduled_start job) / 60)%R) in *.
    repeat destruct (Rle_dec _ _); try discriminate.
    intros _. exists d. split; [reflexivity | lra].
Qed.

(** The sample ping at 09:12 qualifies for the sample job. *)
Lemma ping_1_qualifying :
  qualifying "T" 37.0 (-122.0) (at_clock 9 0) ping_1.
Proof.
  split.
  - unfold in_window, ping_1. simpl technician_id. simpl timestamp.
    split; [reflexivity | clock].
  - unfold at_site, ping_1. simpl latitude. simpl longitude.
    apply calculate_distance_le; lra.
Qed.

Lemma find_arrival_time_ping_1 :
  find_arrival_time [ping_1] "T" 37.0 (-122.0) (at_clock 9 0) = Some (at_clock 9 12).
Proof.
  apply (find_arrival_time_some_intro [ping_1] "T" _ _ _ ping_1).
  - now left.
  - exact ping_1_qualifying.
  - intros q [<- | []] _. lia.
Qed.




Lemma find_arrival_time_within_window_witness :
  (at_clock 9 0 - 7200 * 10 ^ 9 <= at_clock 9 12 <= at_clock 9 0 + 7200 * 10 ^ 9)
  /\ exists d, delay_minutes (Some (at_clock 9 12)) (at_clock 9 0) = Some d
               /\ (-120 <= d <= 120)%R.
Proof.
  exact (proj1 find_arrival_time_within_window [ping_1] "T" 37.0%R (-122.0)%R
           (at_clock 9 0) (at_clock 9 12) find_arrival_time_ping_1).
Defined.

(** C6: for the job scheduled at 2024-01-01T09:00:00 at (37.0, -122.0) and
    the single ping of its technician at 2024-01-01T09:12:00 at
    (37.0001, -122.0001), the arrival is 09:12:00, the delay is 12 minutes
    and the status is Late. *)
Theorem end_to_end_late :
  actual_arrival (analyze_job [ping_1] job_1) = Some (at_clock 9 12)
  /\ result_delay_minutes (analyze_job [ping_1] job_1) = Some 12%R
  /\ status (analyze_job [ping_1] job_1) = "Late".
Proof.
  assert (Hdelay : delay_minutes (Some (at_clock 9 12)) (at_clock 9 0) = Some 12%R).
  { unfold delay_minutes, total_seconds.
    replace (at_clock 9 12 - at_clock 9 0) with 720000000000 by reflexivity.
    f_equal. lra. }
  unfold analyze_job, job_1. cbv zeta.
  simpl actual_arrival. simpl result_delay_minutes. simpl status.
  simpl job_technician_id. simpl job_latitude. simpl job_longitude.
  simpl scheduled_start.
  rewrite find_arrival_time_ping_1, Hdelay.
  split; [reflexivity |]. split; [reflexivity |].
  simpl. destruct (Rle_dec 12 (-5)); [lra |].
  destruct (Rle_dec 12 5); [lra |].
  destruct (Rle_dec 12 30); [reflexivity | lra].
Qed.

End Resolver.

(** ** Status and color *)

Section Status.

Lemma get_arrival_status_early (d : R) :
  (d <= -5)%R -> get_arrival_status (Some d) = "Early".
Proof. intros H. simpl. destruct (Rle_dec d (-5)); [reflexivity | lra]. Qed.

Lemma get_arrival_status_on_time (d : R) :
  (-5 < d <= 5)%R -> get_arrival_status (Some d) = "On Time".
Proof.
  intros H. simpl.
  destruct (Rle_dec d (-5)); [lra |].
  destruct (Rle_dec d 5); [reflexivity | lra].
Qed.

Lemma get_arrival_status_late (d : R) :
  (5 < d <= 30)%R -> get_arrival_status (Some d) = "Late".
Proof.
  intros H. simpl.
  destruct (Rle_dec d (-5)); [lra |].
  destruct (Rle_dec d 5); [lra |].
  destruct (Rle_dec d 30); [reflexivity | lra].
Qed.

Lemma get_arrival_status_very_late (d : R) :
  (30 < d)%R -> get_arrival_status (Some d) = "Very Late".
Proof.
  intros H. simpl.
  destruct (Rle_dec d (-5)); [lra |].
  destruct (Rle_dec d 5); [lra |].
  destruct (Rle_dec d 30); [lra | reflexivity].
Qed.

(** C2: the classifier gives every delay a status: No GPS Data for the
    missing delay, Early up to and including -5, On Time above -5 up to and
    including 5, Late above 5 up to and including 30, Very Late above 30; so
    -5 is Early, 5 is On Time and 30 is Late. *)
Theorem get_arrival_status_boundaries :
  get_arrival_status None = "No GPS Data"
  /\ (forall d : R, (d <= -5)%R -> get_arrival_status (Some d) = "Early")
  /\ (forall d : R, (-5 < d <= 5)%R -> get_arrival_status (Some d) = "On Time")
  /\ (forall d : R, (5 < d <= 30)%R -> get_arrival_status (Some d) = "Late")
  /\ (forall d : R, (30 < d)%R -> get_arrival_status (Some d) = "Very Late")
  /\ get_arrival_status (Some (-5)%R) = "Early"
  /\ get_arrival_status (Some 5%R) = "On Time"
  /\ get_arrival_status (Some 30%R) = "Late".
Proof.
  split; [reflexivity |].
  split; [exact get_arrival_status_early |].
  split; [exact get_arrival_status_on_time |].
  split; [exact get_arrival_status_late |].
  split; [exact get_arrival_status_very_late |].
  split; [apply get_arrival_status_early; lra |].
  split; [apply get_arrival_status_on_time; lra |].
  apply get_arrival_status_late; lra.
Qed.

(** The values next to the three boundaries. *)
Lemma get_arrival_status_boundaries_witness :
  get_arrival_status (Some (-4.999)%R) = "On Time"
  /\ get_arrival_status (Some 5.001%R) = "Late"
  /\ get_arrival_status (Some 30.001%R) = "Very Late".
Proof.
  destruct get_arrival_status_boundaries as (_ & _ & Hon & Hlate & Hvery & _).
  split; [apply Hon; lra |].
  split; [apply Hlate; lra |].
  apply Hvery; lra.
Defined.

(** C8: each of the five statuses has its color, and every other status
    string gets the fallback color gray. *)
Theorem get_status_color_total :
  get_status_color "Early" = "green"
  /\ get_status_color "On Time" = "lightgreen"
  /\ get_status_color "Late" = "orange"
  /\ get_status_color "Very Late" = "red"
  /\ get_status_color "No GPS Data" = "gray"
  /\ (forall status : string,
        status <> "Early" -> status <> "On Time" -> status <> "Late" ->
        status <> "Very Late" -> status <> "No GPS Data" ->
        get_status_color status = "gray").
Proof.
  do 5 (split; [reflexivity |]).
  intros status H1 H2 H3 H4 H5.
  unfold get_status_color, colors.
  rewrite !lookup_insert_ne by congruence.
  now rewrite lookup_empty.
Qed.

Lemma get_status_color_total_witness : get_status_color "Unknown" = "gray".
Proof.
  destruct get_status_color_total as (_ & _ & _ & _ & _ & H).
  apply H; discriminate.
Defined.

End Status.


(** * Further properties of the code *)

(** ** The distance as a metric *)

Section DistanceMetric.
Local Open Scope R_scope.

(** X1: The distance is never negative. *)
Theorem calculate_distance_nonneg (lat1 lon1 lat2 lon2 : R) :
  0 <= calculate_distance lat1 lon1 lat2 lon2.
Proof.
  unfold calculate_distance. cbv zeta.
  apply Rmult_le_pos; [apply sqrt_pos | lra].
Qed.

End DistanceMetric.

(** ** How the resolver composes *)

Section ResolverComposition.

Lemma fold_left_min_out (l : list Z) (a b : Z) :
  fold_left Z.min l (Z.min a b) = Z.min a (fold_left Z.min l b).
Proof.
  revert b. induction l as [| x l IH]; intros b; simpl; [reflexivity |].
  rewrite <- IH. f_equal. lia.
Qed.

Lemma series_min_app (col1 col2 : list Timestamp) :
  series_min (col1 ++ col2) = earlier (series_min col1) (series_min col2).
Proof.
  destruct col1 as [| x col1]; [reflexivity |].
  simpl. rewrite fold_left_app.
  destruct col2 as [| y col2]; simpl; [reflexivity |].
  f_equal. apply fold_left_min_out.
Qed.

Lemma find_arrival_time_concat gps_data1 gps_data2 tech_id job_lat job_lon
    scheduled_time :
  find_arrival_time (gps_data1 ++ gps_data2) tech_id job_lat job_lon scheduled_time
  = earlier
      (find_arrival_time gps_data1 tech_id job_lat job_lon scheduled_time)
      (find_arrival_time gps_data2 tech_id job_lat job_lon scheduled_time).
Proof.
  rewrite !find_arrival_time_unfold.
  rewrite List.filter_app, List.map_app. apply series_min_app.
Qed.

(** X5: Resolving over two tables put end to end gives the earlier of the two
    results: pings can be resolved in batches. *)
Theorem find_arrival_time_app gps_data1 gps_data2 tech_id job_lat job_lon
    scheduled_time :
  find_arrival_time (gps_data1 ++ gps_data2) tech_id job_lat job_lon scheduled_time
  = earlier
      (find_arrival_time gps_data1 tech_id job_lat job_lon scheduled_time)
      (find_arrival_time gps_data2 tech_id job_lat job_lon scheduled_time).
Proof. exact (find_arrival_time_concat gps_data1 gps_data2 tech_id job_lat job_lon scheduled_time). Qed.

(** X6: More pings never delay the arrival: with further pings in the table the
    resolver still finds an arrival, and none later than before. *)
Theorem find_arrival_time_more_pings gps_data more tech_id job_lat job_lon
    scheduled_time t :
  find_arrival_time gps_data tech_id job_lat job_lon scheduled_time = Some t ->
  exists t',
    find_arrival_time (gps_data ++ more) tech_id job_lat job_lon scheduled_time
    = Some t'
    /\ t' <= t.
Proof.
  intros H. rewrite find_arrival_time_concat, H.
  destruct (find_arrival_time more _ _ _ _) as [t2 |]; simpl.
  - exists (Z.min t t2). split; [reflexivity | lia].
  - exists t. split; [reflexivity | lia].
Qed.

Lemma find_arrival_time_more_pings_witness :
  exists t',
    find_arrival_time ([ping_1] ++ pings_T) "T" 37.0 (-122.0) (at_clock 9 0)
    = Some t'
    /\ t' <= at_clock 9 12.
Proof.
  apply (find_arrival_time_more_pings [ping_1] pings_T "T" 37.0%R (-122.0)%R
           (at_clock 9 0) (at_clock 9 12)).
  apply (find_arrival_time_some_intro [ping_1] "T" _ _ _ ping_1).
  - now left.
  - split.
    + unfold in_window, ping_1, at_clock, midnight_2024_01_01, Timedelta_hours.
      simpl. split; [reflexivity | lia].
    + unfold at_site, ping_1. simpl latitude. simpl longitude.
      apply calculate_distance_le; lra.
  - intros q [<- | []] _. lia.
Defined.

(** Two tables with the same pings give the same result. *)
Lemma find_arrival_time_same_pings gps_data gps_data' tech_id job_lat job_lon
    scheduled_time :
  (forall p, In p gps_data <-> In p gps_data') ->
  find_arrival_time gps_data tech_id job_lat job_lon scheduled_time
  = find_arrival_time gps_data' tech_id job_lat job_lon scheduled_time.
Proof.
  intros Hsame.
  pose proof (find_arrival_time_cases gps_data tech_id job_lat job_lon scheduled_time) as H.
  destruct (find_arrival_time gps_data _ _ _ _) as [t |]; symmetry.
  - destruct H as [(p & Hp & Hqual & <-) Hmin].
    apply find_arrival_time_some_intro; [now apply Hsame | assumption |].
    intros q Hin Hqq. apply Hmin; [now apply Hsame | assumption].
  - apply find_arrival_time_none_iff. intros q Hin Hqq.
    apply (H q); [now apply Hsame | assumption].
Qed.

(** X7: The order of the rows of the GPS table does not matter. *)
Theorem find_arrival_time_permutation gps_data gps_data' tech_id job_lat job_lon
    scheduled_time :
  Permutation gps_data gps_data' ->
  find_arrival_time gps_data tech_id job_lat job_lon scheduled_time
  = find_arrival_time gps_data' tech_id job_lat job_lon scheduled_time.
Proof.
  intros Hperm. apply find_arrival_time_same_pings. intros p. split.
  - apply Permutation_in. exact Hperm.
  - apply Permutation_in. symmetry. exact Hperm.
Qed.

Lemma find_arrival_time_permutation_witness :
  find_arrival_time pings_T "T" 0 0 (at_clock 9 0)
  = find_arrival_time (rev pings_T) "T" 0 0 (at_clock 9 0).
Proof.
  apply find_arrival_time_permutation. apply Permutation_rev.
Defined.






End ResolverComposition.

(** ** Delay, status and color together *)

Section DelayStatusColor.

Lemma get_arrival_status_cases (d : R) :
  ((d <= -5)%R /\ get_arrival_status (Some d) = "Early")
  \/ ((-5 < d <= 5)%R /\ get_arrival_status (Some d) = "On Time")
  \/ ((5 < d <= 30)%R /\ get_arrival_status (Some d) = "Late")
  \/ ((30 < d)%R /\ get_arrival_status (Some d) = "Very Late").
Proof.
  simpl.
  destruct (Rle_dec d (-5)); [left; split; [lra | reflexivity] |].
  destruct (Rle_dec d 5); [right; left; split; [lra | reflexivity] |].
  destruct (Rle_dec d 30); [right; right; left; split; [lra | reflexivity] |].
  right; right; right. split; [lra | reflexivity].
Qed.

Lemma status_tells_delay (delay : option R) :
  (get_arrival_status delay = "No GPS Data" <-> delay = None)
  /\ (get_arrival_status delay = "Early"
      <-> exists d, delay = Some d /\ (d <= -5)%R)
  /\ (get_arrival_status delay = "On Time"
      <-> exists d, delay = Some d /\ (-5 < d <= 5)%R)
  /\ (get_arrival_status delay = "Late"
      <-> exists d, delay = Some d /\ (5 < d <= 30)%R)
  /\ (get_arrival_status delay = "Very Late"
      <-> exists d, delay = Some d /\ (30 < d)%R).
Proof.
  destruct delay as [d |].
  - destruct (get_arrival_status_cases d) as [[H E] | [[H E] | [[H E] | [H E]]]];
      rewrite E;
      (split; [split; discriminate |]);
      repeat split;
      try discriminate;
      try (intros _; exists d; split; [reflexivity | lra]);
      try (intros (d' & [= <-] & H'); lra).
  - split; [split; reflexivity |].
    repeat split; try discriminate; intros (d' & Hd & _); discriminate.
Qed.

(** X9: Each status tells the range of the delay: the classifier can be read
    backwards. *)
Theorem get_arrival_status_inverse (delay : option R) :
  (get_arrival_status delay = "No GPS Data" <-> delay = None)
  /\ (get_arrival_status delay = "Early"
      <-> exists d, delay = Some d /\ (d <= -5)%R)
  /\ (get_arrival_status delay = "On Time"
      <-> exists d, delay = Some d /\ (-5 < d <= 5)%R)
  /\ (get_arrival_status delay = "Late"
      <-> exists d, delay = Some d /\ (5 < d <= 30)%R)
  /\ (get_arrival_status delay = "Very Late"
      <-> exists d, delay = Some d /\ (30 < d)%R).
Proof. exact (status_tells_delay delay). Qed.

Lemma color_tells_status (status : string) :
  (get_status_color status = "green" <-> status = "Early")
  /\ (get_status_color status = "lightgreen" <-> status = "On Time")
  /\ (get_status_color status = "orange" <-> status = "Late")
  /\ (get_status_color status = "red" <-> status = "Very Late")
  /\ (get_status_color status = "gray"
      <-> status <> "Early" /\ status <> "On Time" /\ status <> "Late"
          /\ status <> "Very Late").
Proof.
  unfold get_status_color, colors.
  destruct (decide (status = "Early")) as [-> | H1].
  { rewrite lookup_insert_eq. simpl.
    repeat split; try discriminate; try tauto; intros; congruence. }
  rewrite lookup_insert_ne by congruence.
  destruct (decide (status = "On Time")) as [-> | H2].
  { rewrite lookup_insert_eq. simpl.
    repeat split; try discriminate; try tauto; intros; congruence. }
  rewrite lookup_insert_ne by congruence.
  destruct (decide (status = "Late")) as [-> | H3].
  { rewrite lookup_insert_eq. simpl.
    repeat split; try discriminate; try tauto; intros; congruence. }
  rewrite lookup_insert_ne by congruence.
  destruct (decide (status = "Very Late")) as [-> | H4].
  { rewrite lookup_insert_eq. simpl.
    repeat split; try discriminate; try tauto; intros; congruence. }
  rewrite lookup_insert_ne by congruence.
  assert (E : default "gray"
                ((<["No GPS Data" := "gray"]> (∅ : gmap string string)) !! status)
              = "gray").
  { destruct (decide (status = "No GPS Data")) as [-> | H5].
    - now rewrite lookup_insert_eq.
    - rewrite lookup_insert_ne by congruence. now rewrite lookup_empty. }
  rewrite E.
  repeat split; try discriminate; try tauto; intros; congruence.
Qed.

(** X10: The color can be read backwards too, except that gray stands for No GPS
    Data and for every unknown status alike. *)
Theorem get_status_color_inverse (status : string) :
  (get_status_color status = "green" <-> status = "Early")
  /\ (get_status_color status = "lightgreen" <-> status = "On Time")
  /\ (get_status_color status = "orange" <-> status = "Late")
  /\ (get_status_color status = "red" <-> status = "Very Late")
  /\ (get_status_color status = "gray"
      <-> status <> "Early" /\ status <> "On Time" /\ status <> "Late"
          /\ status <> "Very Late").
Proof. exact (color_tells_status status). Qed.

(** X11: the fallback color is never what colors a classified job: the
    status the classifier gives is always a key of the color table, so the
    color is the table's entry; it is gray exactly when the delay is
    missing, and green, lightgreen, orange and red exactly on the four
    ranges of the delay. *)
Theorem status_color_of_delay (delay : option R) :
  exists color : string,
    colors !! get_arrival_status delay = Some color
    /\ get_status_color (get_arrival_status delay) = color
    /\ (color = "gray" <-> delay = None)
    /\ (color = "green" <-> exists d, delay = Some d /\ (d <= -5)%R)
    /\ (color = "lightgreen" <-> exists d, delay = Some d /\ (-5 < d <= 5)%R)
    /\ (color = "orange" <-> exists d, delay = Some d /\ (5 < d <= 30)%R)
    /\ (color = "red" <-> exists d, delay = Some d /\ (30 < d)%R).
Proof.
  destruct delay as [d |].
  - destruct (get_arrival_status_cases d) as [[H E] | [[H E] | [[H E] | [H E]]]];
      rewrite E;
      [exists "green" | exists "lightgreen" | exists "orange" | exists "red"];
      (split; [reflexivity |]); (split; [reflexivity |]);
      repeat split;
      try discriminate;
      try (intros _; exists d; split; [reflexivity | lra]);
      try (intros (d' & [= <-] & H'); lra).
  - exists "gray". split; [reflexivity |]. split; [reflexivity |].
    repeat split; try discriminate; intros (d' & Hd & _); discriminate.
Qed.

Lemma minutes_IZR (m : Z) : IZR (minutes m) = (IZR m * 60000000000)%R.
Proof.
  unfold minutes. replace (m * 60 * 10 ^ 9) with (m * 60000000000) by lia.
  now rewrite mult_IZR.
Qed.

Lemma delay_minutes_threshold (arrival scheduled : Timestamp) (m : Z) :
  exists d,
    delay_minutes (Some arrival) scheduled = Some d
    /\ ((d <= IZR m)%R <-> arrival <= scheduled + minutes m)
    /\ ((d < IZR m)%R <-> arrival < scheduled + minutes m)
    /\ (d = IZR m <-> arrival = scheduled + minutes m).
Proof.
  eexists. split; [reflexivity |].
  unfold total_seconds.
  set (x := IZR (arrival - scheduled)).
  assert (Hle : (x <= IZR (minutes m))%R <-> arrival <= scheduled + minutes m).
  { unfold x. split.
    - intros H. apply le_IZR in H. lia.
    - intros H. apply IZR_le. lia. }
  assert (Hlt : (x < IZR (minutes m))%R <-> arrival < scheduled + minutes m).
  { unfold x. split.
    - intros H. apply lt_IZR in H. lia.
    - intros H. apply IZR_lt. lia. }
  assert (Heq : x = IZR (minutes m) <-> arrival = scheduled + minutes m).
  { unfold x. split.
    - intros H. apply eq_IZR in H. lia.
    - intros H. f_equal. lia. }
  rewrite <- Hle, <- Hlt, <- Heq, minutes_IZR.
  repeat split; intros; lra.
Qed.

(** X12: Comparing the delay with a whole number of minutes is comparing the
    arrival with the scheduled start moved by as many minutes. *)
Theorem delay_minutes_compare (arrival scheduled : Timestamp) (m : Z) :
  exists d,
    delay_minutes (Some arrival) scheduled = Some d
    /\ ((d <= IZR m)%R <-> arrival <= scheduled + minutes m)
    /\ ((d < IZR m)%R <-> arrival < scheduled + minutes m)
    /\ (d = IZR m <-> arrival = scheduled + minutes m).
Proof. exact (delay_minutes_threshold arrival scheduled m). Qed.

End DelayStatusColor.

(** ** One job, from the pings to the status *)

Section JobResult.

Lemma analyze_job_fields gps_data job :
  actual_arrival (analyze_job gps_data job)
  = find_arrival_time gps_data (job_technician_id job) (job_latitude job)
      (job_longitude job) (scheduled_start job)
  /\ result_delay_minutes (analyze_job gps_data job)
     = delay_minutes (actual_arrival (analyze_job gps_data job)) (scheduled_start job)
  /\ status (analyze_job gps_data job)
     = get_arrival_status (result_delay_minutes (analyze_job gps_data job)).
Proof. repeat split. Qed.

Lemma analyze_job_status_by_arrival gps_data job :
  let result := analyze_job gps_data job in
  let start := scheduled_start job in
  (status result = "No GPS Data" <-> actual_arrival result = None)
  /\ (status result = "Early"
      <-> exists t, actual_arrival result = Some t /\ t <= start - minutes 5)
  /\ (status result = "On Time"
      <-> exists t, actual_arrival result = Some t
                    /\ start - minutes 5 < t <= start + minutes 5)
  /\ (status result = "Late"
      <-> exists t, actual_arrival result = Some t
                    /\ start + minutes 5 < t <= start + minutes 30)
  /\ (status result = "Very Late"
      <-> exists t, actual_arrival result = Some t /\ start + minutes 30 < t).
Proof.
  intros result start.
  destruct (analyze_job_fields gps_data job) as (_ & Hdelay & Hstatus).
  fold result start in Hdelay, Hstatus. rewrite Hstatus, Hdelay.
  destruct (status_tells_delay
              (delay_minutes (actual_arrival result) start))
    as (Hnone & Hearly & Hon & Hlate & Hvery).
  rewrite Hnone, Hearly, Hon, Hlate, Hvery.
  destruct (actual_arrival result) as [t |].
  - destruct (delay_minutes_threshold t start (-5)) as (d & Hd & Hle5 & Hlt5 & _).
    destruct (delay_minutes_threshold t start 5) as (d5 & Hd5 & Hle5' & Hlt5' & _).
    destruct (delay_minutes_threshold t start 30) as (d30 & Hd30 & Hle30 & Hlt30 & _).
    rewrite Hd in Hd5, Hd30. injection Hd5 as <-. injection Hd30 as <-.
    rewrite Hd.
    assert (Hm : minutes (-5) = - minutes 5) by reflexivity.
    rewrite Hm in Hle5, Hlt5.
    split; [split; discriminate |].
    split; [| split; [| split]].
    + split.
      * intros (d' & [= <-] & H). exists t. split; [reflexivity |].
        apply Hle5 in H. lia.
      * intros (t' & [= <-] & H). exists d. split; [reflexivity |].
        apply Hle5. lia.
    + split.
      * intros (d' & [= <-] & H1 & H2). exists t. split; [reflexivity |].
        apply Hle5' in H2.
        assert (~ t <= start + - minutes 5) by (rewrite <- Hle5; lra). lia.
      * intros (t' & [= <-] & H1 & H2). exists d. split; [reflexivity |].
        apply Hle5' in H2.
        assert (~ (d <= -5)%R) by (rewrite Hle5; lia). lra.
    + split.
      * intros (d' & [= <-] & H1 & H2). exists t. split; [reflexivity |].
        apply Hle30 in H2.
        assert (~ t <= start + minutes 5) by (rewrite <- Hle5'; lra). lia.
      * intros (t' & [= <-] & H1 & H2). exists d. split; [reflexivity |].
        apply Hle30 in H2.
        assert (~ (d <= 5)%R) by (rewrite Hle5'; lia). lra.
    + split.
      * intros (d' & [= <-] & H). exists t. split; [reflexivity |].
        assert (~ t <= start + minutes 30) by (rewrite <- Hle30; lra). lia.
      * intros (t' & [= <-] & H). exists d. split; [reflexivity |].
        assert (~ (d <= 30)%R) by (rewrite Hle30; lia). lra.
  - simpl. split; [tauto |].
    repeat split; intros (x & Hx & _); discriminate.
Qed.



End JobResult.

(** ** The loop over the jobs *)

Section JobsLoop.

Lemma unchanged_on_trans (s0 s1 s2 : Store) :
  unchanged_on s0 s1 -> unchanged_on s1 s2 -> unchanged_on s0 s2.
Proof.
  intros H01 H12 df Hdf.
  rewrite <- (H01 df Hdf). apply H12. now rewrite (H01 df Hdf).
Qed.

Lemma arrivals_loop_run (jobs : list ScheduleEntry) :
  forall (s : Store) (gps_data : nat) (frame : DataFrame)
         (actual_arrivals : list (option Timestamp)),
    s !! gps_data = Some frame ->
    Forall (fun job => window_representable (scheduled_start job)) jobs ->
    exists s' : Store,
      arrivals_loop gps_data jobs actual_arrivals s
      = (Returned
           (actual_arrivals
            ++ map (fun job =>
                      find_arrival_time (frame_rows frame) (job_technician_id job)
                        (job_latitude job) (job_longitude job) (scheduled_start job))
                 jobs)%list,
         s')
      /\ unchanged_on s s'.
Proof.
  induction jobs as [| job jobs IH];
    intros s gps_data frame actual_arrivals Hgps Hwin.
  - exists s. simpl. rewrite app_nil_r. split; [reflexivity | apply unchanged_on_refl].
  - apply Forall_cons in Hwin. destruct Hwin as [Hjob Hjobs].
    simpl. unfold bind.
    destruct (find_arrival_time_df_run s gps_data (job_technician_id job)
                (job_latitude job) (job_longitude job) (scheduled_start job) Hjob)
      as (s1 & Hrun & Hsame & _).
    rewrite Hrun.
    assert (Hgps1 : s1 !! gps_data = Some frame).
    { rewrite <- Hgps. apply Hsame. rewrite Hgps. eauto. }
    destruct (IH s1 gps_data frame
                (actual_arrivals
                 ++ [find_arrival_time (frame_rows (frame_of s gps_data))
                       (job_technician_id job) (job_latitude job)
                       (job_longitude job) (scheduled_start job)])%list
                Hgps1 Hjobs)
      as (s' & Hloop & Hsame').
    exists s'. split; [| exact (unchanged_on_trans s s1 s' Hsame Hsame')].
    rewrite Hloop. f_equal. rewrite <- app_assoc. simpl.
    unfold frame_of. now rewrite Hgps.
Qed.




(** X17: Every value given to the progress bar is above 0 and at most 1, and the
    last one is 1. *)
Theorem progress_values_range (total_jobs : nat) :
  (forall v, In v (progress_values total_jobs) -> (0 < v <= 1)%R)
  /\ length (progress_values total_jobs) = total_jobs
  /\ (total_jobs <> 0%nat -> List.last (progress_values total_jobs) 0%R = 1%R).
Proof.
  unfold progress_values. split; [| split].
  - intros v Hv. apply List.in_map_iff in Hv. destruct Hv as (i & <- & Hi).
    apply List.in_seq in Hi.
    assert (H1 : (0 < INR (i + 1))%R) by (apply lt_0_INR; lia).
    assert (H2 : (INR (i + 1) <= INR total_jobs)%R) by (apply le_INR; lia).
    assert (H3 : (0 < INR total_jobs)%R) by lra.
    split.
    + apply Rdiv_lt_0_compat; assumption.
    + apply (Rmult_le_reg_r (INR total_jobs)); [exact H3 |].
      unfold Rdiv. rewrite Rmult_assoc, Rinv_l by lra. lra.
  - now rewrite List.length_map, List.length_seq.
  - intros Hn. destruct total_jobs as [| n]; [contradiction |].
    rewrite seq_S, List.map_app. cbn [map]. rewrite last_last.
    replace (0 + n + 1)%nat with (S n) by lia.
    assert (H : INR (S n) <> 0%R) by (apply not_0_INR; lia).
    generalize dependent (INR (S n)). intros x Hx. now field.
Qed.

Lemma progress_values_range_witness :
  List.last (progress_values 3) 0%R = 1%R.
Proof.
  apply (proj2 (proj2 (progress_values_range 3))). discriminate.
Defined.

End JobsLoop.

(** ** The analysis as the script runs it *)

Section Analysis.

Lemma zip_with_map_r {A B C : Type} (f : A -> B -> C) (g : A -> B) (l : list A) :
  zip_with f l (map g l) = map (fun a => f a (g a)) l.
Proof. induction l as [| a l IH]; simpl; [reflexivity | now rewrite IH]. Qed.


(** The run of the analysis for jobs whose window bounds are timestamps:
    [TypeError] when no job has an arrival, and otherwise one row per job,
    in job order, each the row [analyze_job] derives. *)
Lemma analyze_df_run (s : Store) (gps_data : nat) (frame : DataFrame)
    (jobs : list ScheduleEntry) :
  s !! gps_data = Some frame ->
  Forall (fun job => window_representable (scheduled_start job)) jobs ->
  exists s' : Store,
    analyze_df gps_data jobs s
    = (if forallb is_missing
            (map (fun job => actual_arrival (analyze_job (frame_rows frame) job)) jobs)
       then Raised TypeError
       else Returned (map (analyze_job (frame_rows frame)) jobs),
       s')
    /\ s' !! gps_data = Some frame.
Proof.
  intros Hgps Hwin.
  destruct (arrivals_loop_run jobs s gps_data frame [] Hgps Hwin)
    as (s' & Hloop & Hsame).
  exists s'. split; [| rewrite <- Hgps; apply Hsame; rewrite Hgps; eauto].
  unfold analyze_df, bind. rewrite Hloop. simpl app.
  unfold derive_columns.
  change (map (fun job => actual_arrival (analyze_job (frame_rows frame) job)) jobs)
    with (map (fun job =>
                 find_arrival_time (frame_rows frame) (job_technician_id job)
                   (job_latitude job) (job_longitude job) (scheduled_start job)) jobs).
  destruct (forallb is_missing _); [reflexivity |].
  unfold ret. f_equal. f_equal. apply zip_with_map_r.
Qed.

Lemma status_by_arrival gps_data job :
  let result := analyze_job gps_data job in
  let start := scheduled_start (result_job result) in
  (status result = "No GPS Data" <-> actual_arrival result = None)
  /\ (status result = "Early"
      <-> exists t, actual_arrival result = Some t /\ t <= start - minutes 5)
  /\ (status result = "On Time"
      <-> exists t, actual_arrival result = Some t
                    /\ start - minutes 5 < t <= start + minutes 5)
  /\ (status result = "Late"
      <-> exists t, actual_arrival result = Some t
                    /\ start + minutes 5 < t <= start + minutes 30)
  /\ (status result = "Very Late"
      <-> exists t, actual_arrival result = Some t /\ start + minutes 30 < t).
Proof. exact (analyze_job_status_by_arrival gps_data job). Qed.

(** X13: when the analysis returns its rows (the window bounds of the jobs
    being timestamps), there is one row per job, in job order, and the
    status of every row is decided by where its arrival falls relative to
    the scheduled start moved by -5, 5 and 30 minutes: No GPS Data exactly
    without an arrival, Early up to 5 minutes before, On Time up to 5
    minutes after, Late up to 30 minutes after, Very Late beyond. *)
Theorem analyze_df_status (s s' : Store) (gps_data : nat) (frame : DataFrame)
    (jobs : list ScheduleEntry) (results : list ArrivalResult) :
  s !! gps_data = Some frame ->
  Forall (fun job => window_representable (scheduled_start job)) jobs ->
  analyze_df gps_data jobs s = (Returned results, s') ->
  map result_job results = jobs
  /\ Forall
       (fun result =>
          let start := scheduled_start (result_job result) in
          (status result = "No GPS Data" <-> actual_arrival result = None)
          /\ (status result = "Early"
              <-> exists t, actual_arrival result = Some t /\ t <= start - minutes 5)
          /\ (status result = "On Time"
              <-> exists t, actual_arrival result = Some t
                            /\ start - minutes 5 < t <= start + minutes 5)
          /\ (status result = "Late"
              <-> exists t, actual_arrival result = Some t
                            /\ start + minutes 5 < t <= start + minutes 30)
          /\ (status result = "Very Late"
              <-> exists t, actual_arrival result = Some t
                            /\ start + minutes 30 < t))
       results.
Proof.
  intros Hgps Hwin Hrun.
  destruct (analyze_df_run s gps_data frame jobs Hgps Hwin) as (s2 & Hrun2 & _).
  rewrite Hrun in Hrun2.
  destruct (forallb is_missing _); [discriminate |].
  injection Hrun2 as -> _. split.
  - rewrite List.map_map. simpl. apply List.map_id.
  - apply List.Forall_forall. intros result Hin.
    apply List.in_map_iff in Hin. destruct Hin as (job & <- & _).
    exact (status_by_arrival (frame_rows frame) job).
Qed.

Lemma analyze_df_store_1 :
  exists s' : Store,
    analyze_df 0%nat [job_1] store_1
    = (Returned [analyze_job [ping_1] job_1], s').
Proof.
  assert (Hgps : store_1 !! 0%nat = Some (mkDataFrame [ping_1] None))
    by (unfold store_1; apply lookup_singleton_eq).
  assert (Hwin : Forall (fun job => window_representable (scheduled_start job))
                   [job_1])
    by (constructor; [apply at_clock_9_representable | constructor]).
  destruct (analyze_df_run store_1 0%nat (mkDataFrame [ping_1] None) [job_1]
              Hgps Hwin) as (s' & Hrun & _).
  exists s'. rewrite Hrun. cbn [map frame_rows].
  unfold analyze_job at 1. cbn [actual_arrival].
  change (find_arrival_time [ping_1] (job_technician_id job_1) (job_latitude job_1)
            (job_longitude job_1) (scheduled_start job_1))
    with (find_arrival_time [ping_1] "T" 37.0 (-122.0) (at_clock 9 0)).
  now rewrite find_arrival_time_ping_1.
Qed.

Lemma analyze_df_status_witness :
  map result_job [analyze_job [ping_1] job_1] = [job_1]
  /\ Forall
       (fun result =>
          let start := scheduled_start (result_job result) in
          (status result = "No GPS Data" <-> actual_arrival result = None)
          /\ (status result = "Early"
              <-> exists t, actual_arrival result = Some t /\ t <= start - minutes 5)
          /\ (status result = "On Time"
              <-> exists t, actual_arrival result = Some t
                            /\ start - minutes 5 < t <= start + minutes 5)
          /\ (status result = "Late"
              <-> exists t, actual_arrival result = Some t
                            /\ start + minutes 5 < t <= start + minutes 30)
          /\ (status result = "Very Late"
              <-> exists t, actual_arrival result = Some t
                            /\ start + minutes 30 < t))
       [analyze_job [ping_1] job_1].
Proof.
  destruct analyze_df_store_1 as (s' & Hrun).
  apply (analyze_df_status store_1 s' 0%nat (mkDataFrame [ping_1] None) [job_1]
           [analyze_job [ping_1] job_1]).
  - unfold store_1. apply lookup_singleton_eq.
  - constructor; [apply at_clock_9_representable | constructor].
  - exact Hrun.
Defined.



End Analysis.

(** ** The summary *)

Section Summary.

Lemma value_counts_cons (v : string) (col : list string) :
  value_counts (v :: col)
  = <[v := S (default 0%nat (value_counts col !! v))]> (value_counts col).
Proof. reflexivity. Qed.

(** X18: The summary has an entry for exactly the statuses that occur, and the
    entry of a status is the number of its occurrences. *)
Theorem value_counts_lookup (col : list string) (v : string) :
  value_counts col !! v
  = match count_occ String.string_dec col v with
    | O => None
    | S n => Some (S n)
    end.
Proof.
  induction col as [| a col IH]; [apply lookup_empty |].
  rewrite value_counts_cons.
  destruct (String.string_dec a v) as [-> | Hne].
  - rewrite lookup_insert_eq, count_occ_cons_eq by reflexivity.
    rewrite IH. now destruct (count_occ String.string_dec col v).
  - rewrite lookup_insert_ne by exact Hne.
    rewrite count_occ_cons_neq by exact Hne. exact IH.
Qed.

Lemma counts_total_insert (counts : gmap string nat) (v : string) (n : nat) :
  counts !! v = None ->
  counts_total (<[v := n]> counts) = (n + counts_total counts)%nat.
Proof.
  intros H. unfold counts_total.
  apply (map_fold_insert_L (fun _ count acc => (count + acc)%nat)); [| exact H].
  intros. lia.
Qed.

Lemma counts_total_step (counts : gmap string nat) (v : string) :
  counts_total (<[v := S (default 0%nat (counts !! v))]> counts)
  = S (counts_total counts).
Proof.
  destruct (counts !! v) as [c |] eqn:E; simpl.
  - rewrite <- (insert_delete_id counts v c E) at 2.
    rewrite <- insert_delete_eq.
    rewrite !counts_total_insert by apply lookup_delete_eq. lia.
  - now rewrite counts_total_insert by exact E.
Qed.

(** X19: the counts of the status summary add up to the number of jobs. *)
Theorem value_counts_total (col : list string) :
  counts_total (value_counts col) = length col.
Proof.
  induction col as [| v col IH]; [reflexivity |].
  rewrite value_counts_cons, counts_total_step, IH. reflexivity.
Qed.

Lemma In_dropna (col : list (option R)) (d : R) :
  In d (dropna col) <-> In (Some d) col.
Proof.
  induction col as [| [x |] col IH]; simpl.
  - tauto.
  - rewrite IH. split; intros [H | H]; auto; [left; congruence | left; congruence].
  - rewrite IH. split; [auto | intros [H | H]; [discriminate | exact H]].
Qed.

Lemma fold_left_Rmax_spec (ds : list R) (d : R) :
  (fold_left Rmax ds d = d \/ In (fold_left Rmax ds d) ds)
  /\ (d <= fold_left Rmax ds d)%R
  /\ (forall x, In x ds -> (x <= fold_left Rmax ds d)%R).
Proof.
  revert d. induction ds as [| a ds IH]; intros d; simpl.
  - split; [now left |]. split; [lra | contradiction].
  - destruct (IH (Rmax d a)) as (Hin & Hle & Hall).
    pose proof (Rmax_l d a). pose proof (Rmax_r d a).
    split; [| split].
    + destruct Hin as [E | Hin]; [| now right; right].
      rewrite E. unfold Rmax. destruct (Rle_dec d a); auto.
    + lra.
    + intros x [<- | Hx]; [lra | auto].
Qed.

Lemma fold_left_Rmin_spec (ds : list R) (d : R) :
  (fold_left Rmin ds d = d \/ In (fold_left Rmin ds d) ds)
  /\ (fold_left Rmin ds d <= d)%R
  /\ (forall x, In x ds -> (fold_left Rmin ds d <= x)%R).
Proof.
  revert d. induction ds as [| a ds IH]; intros d; simpl.
  - split; [now left |]. split; [lra | contradiction].
  - destruct (IH (Rmin d a)) as (Hin & Hle & Hall).
    pose proof (Rmin_l d a). pose proof (Rmin_r d a).
    split; [| split].
    + destruct Hin as [E | Hin]; [| now right; right].
      rewrite E. unfold Rmin. destruct (Rle_dec d a); auto.
    + lra.
    + intros x [<- | Hx]; [lra | auto].
Qed.

Lemma delay_extremes_some (delays : list (option R)) (worst best : R) :
  delay_extremes delays = Some (worst, best) ->
  In (Some worst) delays
  /\ In (Some best) delays
  /\ (forall d, In (Some d) delays -> (best <= d <= worst)%R).
Proof.
  unfold delay_extremes.
  destruct (dropna delays) as [| d ds] eqn:E; [discriminate |].
  intros H. injection H as <- <-.
  destruct (fold_left_Rmax_spec ds d) as (Hmax_in & Hmax_d & Hmax_all).
  destruct (fold_left_Rmin_spec ds d) as (Hmin_in & Hmin_d & Hmin_all).
  split; [| split].
  - apply In_dropna. rewrite E. destruct Hmax_in as [-> | Hin]; [now left | now right].
  - apply In_dropna. rewrite E. destruct Hmin_in as [-> | Hin]; [now left | now right].
  - intros x Hx. apply In_dropna in Hx. rewrite E in Hx.
    destruct Hx as [<- | Hx]; split; auto.
Qed.

(** X20: the worst and the best delay are shown exactly when some delay is
    known; they are then delays of jobs, and every known delay lies between
    them. *)
Theorem delay_extremes_spec (delays : list (option R)) :
  (delay_extremes delays = None <-> forall d, ~ In (Some d) delays)
  /\ (forall worst best,
        delay_extremes delays = Some (worst, best) ->
        In (Some worst) delays
        /\ In (Some best) delays
        /\ (forall d, In (Some d) delays -> (best <= d <= worst)%R)).
Proof.
  split; [| apply delay_extremes_some].
  unfold delay_extremes.
  destruct (dropna delays) as [| d ds] eqn:E.
  - split; [| reflexivity]. intros _ x Hx.
    apply In_dropna in Hx. rewrite E in Hx. contradiction.
  - split; [discriminate |]. intros H. exfalso.
    apply (H d). apply In_dropna. rewrite E. now left.
Qed.

Lemma delay_extremes_spec_witness :
  In (Some (Rmax 12 (-3))) [Some 12%R; None; Some (-3)%R]
  /\ In (Some (Rmin 12 (-3))) [Some 12%R; None; Some (-3)%R]
  /\ (forall d, In (Some d) [Some 12%R; None; Some (-3)%R] ->
        (Rmin 12 (-3) <= d <= Rmax 12 (-3))%R).
Proof.
  apply (proj2 (delay_extremes_spec [Some 12%R; None; Some (-3)%R])).
  reflexivity.
Defined.

Lemma analyze_job_delay_range gps_data job (d : R) :
  result_delay_minutes (analyze_job gps_data job) = Some d ->
  (-120 <= d <= 120)%R.
Proof.
  destruct (analyze_job_fields gps_data job) as (Harr & Hdelay & _).
  rewrite Hdelay, Harr.
  pose proof (find_arrival_time_cases gps_data (job_technician_id job)
                (job_latitude job) (job_longitude job) (scheduled_start job)) as H.
  destruct (find_arrival_time _ _ _ _ _) as [t |]; [| discriminate].
  destruct H as [(p & _ & [(_ & Hlo & Hhi) _] & <-) _].
  destruct (delay_minutes_threshold (timestamp p) (scheduled_start job) 120)
    as (d1 & Hd1 & Hle & _).
  destruct (delay_minutes_threshold (timestamp p) (scheduled_start job) (-120))
    as (d2 & Hd2 & _ & Hlt & _).
  rewrite Hd1 in Hd2. injection Hd2 as <-.
  rewrite Hd1. intros [= <-].
  change (minutes 120) with (Timedelta_hours 2) in Hle.
  change (minutes (-120)) with (- Timedelta_hours 2) in Hlt.
  split.
  - destruct (Rle_lt_dec (-120) d1) as [Hok | Hbad]; [exact Hok |].
    apply Hlt in Hbad. lia.
  - apply Hle. lia.
Qed.

(** X21: the worst and the best delay shown for an analysis that returned
    its rows are within two hours: -120 <= best <= worst <= 120 minutes. *)
Theorem delay_extremes_of_analysis (s s' : Store) (gps_data : nat)
    (frame : DataFrame) (jobs : list ScheduleEntry)
    (results : list ArrivalResult) (worst best : R) :
  s !! gps_data = Some frame ->
  Forall (fun job => window_representable (scheduled_start job)) jobs ->
  analyze_df gps_data jobs s = (Returned results, s') ->
  delay_extremes (map result_delay_minutes results) = Some (worst, best) ->
  (-120 <= best)%R /\ (best <= worst)%R /\ (worst <= 120)%R.
Proof.
  intros Hgps Hwin Hrun H.
  destruct (analyze_df_run s gps_data frame jobs Hgps Hwin) as (s2 & Hrun2 & _).
  rewrite Hrun in Hrun2.
  destruct (forallb is_missing _); [discriminate |].
  injection Hrun2 as -> _.
  apply delay_extremes_some in H. destruct H as (Hworst & Hbest & Hall).
  pose proof (Hall worst Hworst) as Hbw.
  rewrite List.map_map in Hworst, Hbest.
  apply List.in_map_iff in Hworst. destruct Hworst as (jw & Hw & _).
  apply List.in_map_iff in Hbest. destruct Hbest as (jb & Hb & _).
  apply analyze_job_delay_range in Hw. apply analyze_job_delay_range in Hb.
  lra.
Qed.

Lemma delay_extremes_of_analysis_witness :
  let d := (total_seconds (at_clock 9 12 - at_clock 9 0) / 60)%R in
  (-120 <= d)%R /\ (d <= d)%R /\ (d <= 120)%R.
Proof.
  intros d.
  destruct analyze_df_store_1 as (s' & Hrun).
  apply (delay_extremes_of_analysis store_1 s' 0%nat (mkDataFrame [ping_1] None)
           [job_1] [analyze_job [ping_1] job_1] d d).
  - unfold store_1. apply lookup_singleton_eq.
  - constructor; [apply at_clock_9_representable | constructor].
  - exact Hrun.
  - simpl map. unfold analyze_job, job_1. simpl result_delay_minutes.
    simpl job_technician_id. simpl job_latitude. simpl job_longitude.
    simpl scheduled_start.
    rewrite find_arrival_time_ping_1. reflexivity.
Defined.

End Summary.
